(** * The ChatParrotLink echo chat model of docs/docs/how_to/custom_chat_model.ipynb

    A shallow embedding of the class [ChatParrotLink] defined in the notebook
    (its methods [_generate] and [_stream]), together with the facts the
    specification states about it.

    Conventions of the embedding:
    - a Python [int] is a [Z]; [len] returns a [Z];
    - a Python [str] is a [string]; one [ascii] stands for one character;
    - a Python [dict] with string keys is a [gmap string _];
    - an exception is a value of [PyError]; code that can raise returns a
      [Result];
    - a generator is run to exhaustion by its consumer: its meaning is the
      list of the chunks it yields, the calls it makes on the run manager,
      and how it ends (normally, or with the exception raised by [next]). *)

From Stdlib Require Import ZArith String Ascii List Floats.
From stdpp Require Import base list strings gmap.

Local Open Scope Z_scope.

(** ** Python values used by the class *)

Module Py.

(** The two exceptions the methods can raise. *)
Inductive PyError : Type :=
| IndexError          (* list index out of range *)
| UnboundLocalError.  (* local variable read before it is assigned *)

Inductive Result (A : Type) : Type :=
| Ok (a : A)
| Raise (e : PyError).
Arguments Ok {A} a.
Arguments Raise {A} e.

(** [len(s)] for a string. *)
Definition len (s : string) : Z := Z.of_nat (String.length s).

(** [xs[-1]]: the last element, [IndexError] on the empty list. *)
Fixpoint index_last {A : Type} (xs : list A) : Result A :=
  match xs with
  | [] => Raise IndexError
  | [x] => Ok x
  | _ :: xs' => index_last xs'
  end.

(** The bound of the slice [s[:stop]] on a sequence of length [n], as
    Python adjusts it: a negative [stop] counts from the end and is clipped
    at 0, a [stop] past the end is clipped at [n]. *)
Definition adjust_stop (stop n : Z) : Z :=
  if stop <? 0 then
    (if stop + n <? 0 then 0 else stop + n)
  else
    (if n <=? stop then n else stop).

(** [s[:stop]] for a string. *)
Definition slice_to (s : string) (stop : Z) : string :=
  substring 0 (Z.to_nat (adjust_stop stop (len s))) s.

(** [sum(xs)] for a sequence of integers. *)
Definition sum (xs : list Z) : Z := fold_left Z.add xs 0.

(** Iterating over a string yields its characters as strings of length 1. *)
Fixpoint chars (s : string) : list string :=
  match s with
  | EmptyString => []
  | String c s' => String c EmptyString :: chars s'
  end.

(** [str(s)] of a string is the string itself. *)
Definition str (s : string) : string := s.

(** A value stored in a metadata dictionary. *)
Inductive Value : Type :=
| VInt (n : Z)
| VStr (s : string).

End Py.
Import Py.

(** ** Messages, chunks and results *)

(** Modelled from the spec: the message classes of langchain_core are not
    part of the notebook.  The specification describes them as conversational
    message records with a role, a text content and optional metadata such as
    token counts. *)
Inductive Role : Type := System | Human | AI | Function | Tool.

Record UsageMetadata : Type := mkUsage {
  input_tokens : Z;
  output_tokens : Z;
  total_tokens : Z
}.

Record BaseMessage : Type := mkMessage {
  role : Role;
  content : string;
  additional_kwargs : gmap string Value;
  response_metadata : gmap string Value;
  usage_metadata : option UsageMetadata
}.

Definition HumanMessage (c : string) : BaseMessage :=
  mkMessage Human c ∅ ∅ None.

(** [AIMessage(content=.., additional_kwargs=.., response_metadata=..,
    usage_metadata=..)] *)
Definition AIMessage (c : string) (kw md : gmap string Value)
    (u : option UsageMetadata) : BaseMessage :=
  mkMessage AI c kw md u.

(** [AIMessageChunk(content=.., ...)]: fields that are not given are empty. *)
Definition AIMessageChunk (c : string) (md : gmap string Value)
    (u : option UsageMetadata) : BaseMessage :=
  mkMessage AI c ∅ md u.

Record ChatGeneration : Type := mkGeneration { message : BaseMessage }.
Record ChatGenerationChunk : Type := mkChunk { chunk_message : BaseMessage }.
Record ChatResult : Type := mkResult { generations : list ChatGeneration }.

(** The run manager handed to the model by the framework.  The notebook only
    calls [on_llm_new_token] on it; the record keeps the calls received, in
    order. *)
Record CallbackManagerForLLMRun : Type := mkManager {
  new_tokens : list (string * ChatGenerationChunk)
}.

Definition on_llm_new_token (rm : CallbackManagerForLLMRun) (token : string)
    (chunk : ChatGenerationChunk) : CallbackManagerForLLMRun :=
  mkManager (new_tokens rm ++ [(token, chunk)]).

(** ** The model *)

Record ChatParrotLink : Type := mkParrot {
  model_name : string;
  parrot_buffer_length : Z;
  temperature : option float;
  max_tokens : option Z;
  timeout : option Z;
  stop : option (list string);
  max_retries : Z
}.

(** [ChatParrotLink(parrot_buffer_length=n, model=name)], other fields at
    their defaults. *)
Definition new_ChatParrotLink (n : Z) (name : string) : ChatParrotLink :=
  mkParrot name n None None None None 2.

(** [sum(len(message.content) for message in messages)] *)
Definition count_input_tokens (messages : list BaseMessage) : Z :=
  sum (map (fun message => len (content message)) messages).

(** [ChatParrotLink._generate].  The arguments [stop] and [run_manager] are
    accepted and not used. *)
Definition _generate (self : ChatParrotLink) (messages : list BaseMessage)
    (stop : option (list string))
    (run_manager : option CallbackManagerForLLMRun) : Result ChatResult :=
  match index_last messages with
  | Raise e => Raise e
  | Ok last_message =>
      let tokens := slice_to (content last_message) (parrot_buffer_length self) in
      let ct_input_tokens := count_input_tokens messages in
      let ct_output_tokens := len tokens in
      let message :=
        AIMessage tokens ∅
          (<["time_in_seconds" := VInt 3]>
             (<["model_name" := VStr (model_name self)]> ∅))
          (Some (mkUsage ct_input_tokens ct_output_tokens
                         (ct_input_tokens + ct_output_tokens))) in
      let generation := mkGeneration message in
      Ok (mkResult [generation])
  end.

(** ** Generators

    The body of a generator function runs in [Gen]: it may yield chunks, call
    the run manager it was given (a Python object, mutated in place: the
    state of the monad), and raise. *)

Module Generator.

Record Run (A : Type) : Type := mkRun {
  yielded : list ChatGenerationChunk;
  manager : option CallbackManagerForLLMRun;
  outcome : Result A
}.
Arguments mkRun {A} _ _ _.
Arguments yielded {A} _.
Arguments manager {A} _.
Arguments outcome {A} _.

Definition Gen (A : Type) : Type :=
  option CallbackManagerForLLMRun -> Run A.

Definition gen_ret {A : Type} (a : A) : Gen A :=
  fun rm => mkRun [] rm (Ok a).

Definition gen_bind {A B : Type} (k : A -> Gen B) (m : Gen A) : Gen B :=
  fun rm =>
    let r := m rm in
    match outcome r with
    | Raise e => mkRun (yielded r) (manager r) (Raise e)
    | Ok a =>
        let r' := k a (manager r) in
        mkRun (yielded r ++ yielded r') (manager r') (outcome r')
    end.

#[global] Instance Gen_ret : MRet Gen := @gen_ret.
#[global] Instance Gen_bind : MBind Gen := @gen_bind.

(** [yield chunk] *)
Definition yield (chunk : ChatGenerationChunk) : Gen unit :=
  fun rm => mkRun [chunk] rm (Ok tt).

(** An expression that returns or raises. *)
Definition eval {A : Type} (r : Result A) : Gen A :=
  fun rm => mkRun [] rm r.

(** Reading a local variable: [UnboundLocalError] when it was never
    assigned. *)
Definition read_local {A : Type} (x : option A) : Gen A :=
  match x with
  | Some v => eval (Ok v)
  | None => eval (Raise UnboundLocalError)
  end.

(** The truth value of [run_manager]: [None] is false, a manager is true. *)
Definition run_manager_given : Gen bool :=
  fun rm => mkRun [] rm (Ok (bool_decide (is_Some rm))).

(** [run_manager.on_llm_new_token(token, chunk=chunk)] *)
Definition call_on_llm_new_token (token : string)
    (chunk : ChatGenerationChunk) : Gen unit :=
  fun rm =>
    mkRun [] ((fun m => on_llm_new_token m token chunk) <$> rm) (Ok tt).

(** [for x in xs: body], where [body] updates the local variables [S] it
    assigns.  The loop variable is a local variable of the function: it is
    unbound ([None]) until the first iteration and keeps its last value after
    the loop. *)
Fixpoint for_in {S : Type} (xs : list string) (body : string -> S -> Gen S)
    (x0 : option string) (s : S) : Gen (option string * S) :=
  match xs with
  | [] => mret (x0, s)
  | x :: xs' => s' ← body x s; for_in xs' body (Some x) s'
  end.

End Generator.
Import Generator.

(** The body of the loop of [_stream], for one [token]; it assigns
    [ct_input_tokens]. *)
Definition _stream_loop_body (token : string) (ct_input_tokens : Z) : Gen Z :=
  let usage_metadata :=
    mkUsage ct_input_tokens 1 (ct_input_tokens + 1) in
  let ct_input_tokens := 0 in
  let chunk := mkChunk (AIMessageChunk token ∅ (Some usage_metadata)) in
  given ← run_manager_given;
  (if given : bool then call_on_llm_new_token token chunk else mret tt);;
  yield chunk;;
  mret ct_input_tokens.

(** [ChatParrotLink._stream].  The argument [stop] is accepted and not used;
    [run_manager] is the state the body starts in. *)
Definition _stream (self : ChatParrotLink) (messages : list BaseMessage)
    (stop : option (list string)) : Gen unit :=
  last_message ← eval (index_last messages);
  let tokens :=
    str (slice_to (content last_message) (parrot_buffer_length self)) in
  let ct_input_tokens := count_input_tokens messages in
  locals ← for_in (chars tokens) _stream_loop_body None ct_input_tokens;
  let token := fst locals in
  let chunk :=
    mkChunk (AIMessageChunk ""
               (<["time_in_sec" := VInt 3]>
                  (<["model_name" := VStr (model_name self)]> ∅))
               None) in
  given ← run_manager_given;
  (if given : bool
   then token ← read_local token; call_on_llm_new_token token chunk
   else mret tt);;
  yield chunk.

(** [ChatParrotLink._llm_type] (a property). *)
Definition _llm_type (self : ChatParrotLink) : string :=
  "echoing-chat-model-advanced".

(** [ChatParrotLink._identifying_params] (a property). *)
Definition _identifying_params (self : ChatParrotLink) : gmap string Value :=
  {[ "model_name" := VStr (model_name self) ]}.

(** ** Vocabulary of the specification *)

(** "[out] is the first [n] characters of [s] (the whole of [s] when it is
    shorter than [n])". *)
Definition first_characters (n : Z) (s out : string) : Prop :=
  (len s < n -> out = s) /\
  (n <= len s -> (exists rest, s = out +:+ rest) /\ len out = n).

(** "[s] truncated to [n] characters". *)
Definition truncated (n : Z) (s : string) : string :=
  substring 0 (Z.to_nat n) s.

(** The text of a prompt: the contents of its messages, in order. *)
Definition prompt_text (messages : list BaseMessage) : string :=
  String.concat "" (map content messages).

(** The total content length of the input messages, counted in characters. *)
Definition total_content_length (messages : list BaseMessage) : nat :=
  sum_list_with (fun message => String.length (content message)) messages.

(** The text the model echoes for a last message: the slice both methods
    take. *)
Definition echoed (self : ChatParrotLink) (last_message : BaseMessage) : string :=
  slice_to (content last_message) (parrot_buffer_length self).

(** The overall text of a stream: its chunk contents, concatenated. *)
Definition streamed_text (chunks : list ChatGenerationChunk) : string :=
  String.concat "" (map (fun c => content (chunk_message c)) chunks).

(** Token counts of a chunk; a chunk without usage metadata counts for
    nothing. *)
Definition chunk_input_tokens (c : ChatGenerationChunk) : Z :=
  from_option input_tokens 0 (usage_metadata (chunk_message c)).

Definition chunk_output_tokens (c : ChatGenerationChunk) : Z :=
  from_option output_tokens 0 (usage_metadata (chunk_message c)).

Definition chunk_total_tokens (c : ChatGenerationChunk) : Z :=
  from_option total_tokens 0 (usage_metadata (chunk_message c)).

(** The chunk [_stream] yields for one character, [ct] being the input token
    count it reports. *)
Definition content_chunk (ct : Z) (token : string) : ChatGenerationChunk :=
  mkChunk (AIMessageChunk token ∅ (Some (mkUsage ct 1 (ct + 1)))).

(** The chunks of a whole text: the first one reports [ct], the others 0. *)
Definition content_chunks (ct : Z) (tokens : list string)
    : list ChatGenerationChunk :=
  match tokens with
  | [] => []
  | t :: ts => content_chunk ct t :: map (content_chunk 0) ts
  end.

(** The closing chunk of a stream. *)
Definition final_chunk (self : ChatParrotLink) : ChatGenerationChunk :=
  mkChunk (AIMessageChunk ""
             (<["time_in_sec" := VInt 3]>
                (<["model_name" := VStr (model_name self)]> ∅))
             None).

(** The run manager after it received [calls]. *)
Definition notified (rm : option CallbackManagerForLLMRun)
    (calls : list (string * ChatGenerationChunk))
    : option CallbackManagerForLLMRun :=
  (fun m => mkManager (new_tokens m ++ calls)) <$> rm.

(** ** The claims of the specification, as predicates of one call *)

(** "[_generate] returns exactly one generation whose content equals the
    first [parrot_buffer_length] characters of the content of the last
    message (the whole content when it is shorter)". *)
Definition generate_echoes_first (self : ChatParrotLink)
    (messages : list BaseMessage) (stop : option (list string))
    (run_manager : option CallbackManagerForLLMRun) : Prop :=
  exists last_message msg,
    last messages = Some last_message /\
    _generate self messages stop run_manager
      = Ok (mkResult [mkGeneration msg]) /\
    first_characters (parrot_buffer_length self) (content last_message)
      (content msg).

(** "the content of the message returned by [_generate] equals the input
    prompt truncated to [parrot_buffer_length] characters". *)
Definition generate_truncates_prompt (self : ChatParrotLink)
    (messages : list BaseMessage) (stop : option (list string))
    (run_manager : option CallbackManagerForLLMRun) : Prop :=
  exists msg,
    _generate self messages stop run_manager
      = Ok (mkResult [mkGeneration msg]) /\
    content msg = truncated (parrot_buffer_length self) (prompt_text messages).

(** "the sum of [input_tokens] over all chunks yielded by [_stream] equals
    the total content length of all input messages". *)
Definition stream_conserves_input_tokens (self : ChatParrotLink)
    (messages : list BaseMessage) (stop : option (list string))
    (run_manager : option CallbackManagerForLLMRun) : Prop :=
  sum (map chunk_input_tokens
         (yielded (_stream self messages stop run_manager)))
  = Z.of_nat (total_content_length messages).

(** ** The models of the notebook *)

Definition model : ChatParrotLink := new_ChatParrotLink 3 "my_custom_model".

(** The model of the class docstring, and the same model with the other
    fields set. *)
Definition bird_brain : ChatParrotLink := new_ChatParrotLink 2 "bird-brain-001".

Definition bird_brain_tuned : ChatParrotLink :=
  mkParrot "bird-brain-001" 2 (Some 0.5%float) (Some 16) (Some 30)
    (Some ["."%string]) 5.

(** ** Strings and sequences *)

Section PyFacts.

Lemma len_nonneg (s : string) : 0 <= len s.
Proof. unfold len. lia. Qed.

Lemma index_last_spec {A : Type} (xs : list A) :
  index_last xs = match last xs with
                  | Some x => Ok x
                  | None => Raise IndexError
                  end.
Proof.
  induction xs as [|x [|y ys] IH]; try reflexivity.
  rewrite last_cons_cons. exact IH.
Qed.

Lemma substring_0_split (k : nat) (s : string) :
  exists rest, s = substring 0 k s +:+ rest.
Proof.
  revert s. induction k as [|k IH]; intros s.
  - exists s. destruct s; reflexivity.
  - destruct s as [|c s].
    + exists EmptyString. reflexivity.
    + destruct (IH s) as [rest Hrest]. exists rest.
      change (String c s = String c (substring 0 k s +:+ rest)).
      f_equal. exact Hrest.
Qed.

Lemma substring_0_length (k : nat) (s : string) :
  String.length (substring 0 k s) = Nat.min k (String.length s).
Proof.
  revert s. induction k as [|k IH]; intros [|c s]; simpl; try reflexivity.
  rewrite IH. reflexivity.
Qed.

Lemma substring_0_all (k : nat) (s : string) :
  (String.length s <= k)%nat -> substring 0 k s = s.
Proof.
  revert s. induction k as [|k IH]; intros [|c s] Hle; simpl in *;
    try reflexivity; try lia.
  rewrite IH by lia. reflexivity.
Qed.

Lemma chars_length (s : string) : length (chars s) = String.length s.
Proof. induction s as [|c s IH]; simpl; congruence. Qed.

Lemma chars_concat (s : string) : String.concat "" (chars s) = s.
Proof.
  induction s as [|c s IH]; [reflexivity|].
  simpl. destruct (chars s) eqn:E.
  - simpl in IH. rewrite <- IH. reflexivity.
  - rewrite IH. reflexivity.
Qed.

Lemma chars_single (s t : string) : t ∈ chars s -> String.length t = 1%nat.
Proof.
  induction s as [|c s IH]; simpl; intros Hin.
  - inversion Hin.
  - apply elem_of_cons in Hin as [->|Hin]; [reflexivity|auto].
Qed.

Lemma chars_nil (s : string) : chars s = [] <-> s = EmptyString.
Proof. destruct s; simpl; split; congruence. Qed.

Lemma fold_left_add (xs : list Z) (a : Z) :
  fold_left Z.add xs a = a + fold_left Z.add xs 0.
Proof.
  revert a. induction xs as [|x xs IH]; intros a; simpl; [lia|].
  rewrite (IH (a + x)), (IH (0 + x)). lia.
Qed.

Lemma sum_cons (x : Z) (xs : list Z) : sum (x :: xs) = x + sum xs.
Proof. unfold sum. simpl. rewrite fold_left_add. lia. Qed.

Lemma count_input_tokens_total (messages : list BaseMessage) :
  count_input_tokens messages = Z.of_nat (total_content_length messages).
Proof.
  unfold count_input_tokens, total_content_length.
  induction messages as [|m ms IH]; [reflexivity|].
  cbn [map sum_list_with]. rewrite sum_cons, IH. unfold len. lia.
Qed.

End PyFacts.

(** ** What a run of [_stream] looks like *)

Section StreamRuns.

Lemma content_chunks_zero (tokens : list string) :
  content_chunks 0 tokens = map (content_chunk 0) tokens.
Proof. destruct tokens; reflexivity. Qed.

Lemma notified_nil rm : notified rm [] = rm.
Proof.
  destruct rm as [[log]|]; [|reflexivity].
  unfold notified. simpl. rewrite app_nil_r. reflexivity.
Qed.

Lemma notified_app rm calls1 calls2 :
  notified (notified rm calls1) calls2 = notified rm (calls1 ++ calls2).
Proof.
  destruct rm as [[log]|]; [|reflexivity].
  unfold notified. simpl. rewrite app_assoc. reflexivity.
Qed.

Lemma stream_loop_body_run (token : string) (ct : Z) rm :
  _stream_loop_body token ct rm
  = mkRun [content_chunk ct token]
          (notified rm [(token, content_chunk ct token)]) (Ok 0).
Proof. destruct rm as [[log]|]; reflexivity. Qed.

Lemma stream_loop_run (tokens : list string) (x0 : option string) (ct : Z) rm :
  for_in tokens _stream_loop_body x0 ct rm
  = mkRun (content_chunks ct tokens)
          (notified rm (zip tokens (content_chunks ct tokens)))
          (Ok (from_option Some x0 (last tokens),
               match tokens with [] => ct | _ => 0 end)).
Proof.
  revert x0 ct rm. induction tokens as [|t ts IH]; intros x0 ct rm.
  - cbn. rewrite notified_nil. reflexivity.
  - cbn [for_in]. unfold mbind, Gen_bind, gen_bind.
    rewrite stream_loop_body_run. cbn [outcome yielded manager].
    rewrite IH. cbn [outcome yielded manager].
    rewrite notified_app, content_chunks_zero.
    clear IH. f_equal. destruct ts as [|t' ts]; [reflexivity|].
    rewrite last_cons_cons.
    destruct (proj2 (last_is_Some (t' :: ts))) as [y Hy]; [discriminate|].
    rewrite Hy. reflexivity.
Qed.

Variable self : ChatParrotLink.
Variable stop : option (list string).

Lemma stream_empty_run rm :
  _stream self [] stop rm = mkRun [] rm (Raise IndexError).
Proof. reflexivity. Qed.

Lemma stream_run_start (messages : list BaseMessage) (last_message : BaseMessage) rm :
  last messages = Some last_message ->
  _stream self messages stop rm
  = let tokens := chars (echoed self last_message) in
    let chunks := content_chunks (count_input_tokens messages) tokens in
    let rm' := notified rm (zip tokens chunks) in
    match rm', last tokens with
    | Some _, None => mkRun chunks rm' (Raise UnboundLocalError)
    | Some _, Some token =>
        mkRun (chunks ++ [final_chunk self])
              (notified rm' [(token, final_chunk self)]) (Ok tt)
    | None, _ => mkRun (chunks ++ [final_chunk self]) None (Ok tt)
    end.
Proof.
  intros Hlast. unfold _stream, mbind, Gen_bind, gen_bind, eval.
  rewrite index_last_spec, Hlast. cbn [outcome yielded manager].
  rewrite stream_loop_run. cbn [outcome yielded manager fst app].
  unfold str, echoed.
  destruct rm as [[log]|]; cbn.
  - destruct (last (chars _)); cbn; rewrite ?app_nil_r; reflexivity.
  - rewrite ?app_nil_r. reflexivity.
Qed.

Lemma stream_run_no_manager (messages : list BaseMessage) (last_message : BaseMessage) :
  last messages = Some last_message ->
  _stream self messages stop None
  = mkRun (content_chunks (count_input_tokens messages)
             (chars (echoed self last_message)) ++ [final_chunk self])
          None (Ok tt).
Proof. intros Hlast. rewrite (stream_run_start _ _ _ Hlast). reflexivity. Qed.

Lemma stream_run_manager_empty (messages : list BaseMessage)
    (last_message : BaseMessage) (m : CallbackManagerForLLMRun) :
  last messages = Some last_message ->
  echoed self last_message = EmptyString ->
  _stream self messages stop (Some m)
  = mkRun [] (Some m) (Raise UnboundLocalError).
Proof.
  intros Hlast Hempty. rewrite (stream_run_start _ _ _ Hlast), Hempty.
  cbn. rewrite app_nil_r. destruct m. reflexivity.
Qed.

Lemma stream_run_yielded (messages : list BaseMessage)
    (last_message : BaseMessage) rm :
  last messages = Some last_message ->
  (rm = None \/ echoed self last_message <> EmptyString) ->
  yielded (_stream self messages stop rm)
  = content_chunks (count_input_tokens messages)
      (chars (echoed self last_message)) ++ [final_chunk self]
  /\ outcome (_stream self messages stop rm) = Ok tt.
Proof.
  intros Hlast Hcase. rewrite (stream_run_start _ _ _ Hlast). cbv zeta.
  destruct Hcase as [->|Hne]; [split; reflexivity|].
  destruct (notified rm _); [|split; reflexivity].
  destruct (last (chars (echoed self last_message))) eqn:E;
    [split; reflexivity|].
  apply last_None, chars_nil in E. contradiction.
Qed.

End StreamRuns.

(** ** [_generate]: the echoed text *)

Section Generate.

Variable self : ChatParrotLink.
Variable stop : option (list string).
Variable run_manager : option CallbackManagerForLLMRun.

(** What [_generate] returns on a list with last element [last_message]. *)
Lemma generate_run (messages : list BaseMessage) (last_message : BaseMessage) :
  last messages = Some last_message ->
  _generate self messages stop run_manager
  = Ok (mkResult [mkGeneration
         (AIMessage (echoed self last_message) ∅
            (<["time_in_seconds" := VInt 3]>
               (<["model_name" := VStr (model_name self)]> ∅))
            (Some (mkUsage (count_input_tokens messages)
                     (len (echoed self last_message))
                     (count_input_tokens messages
                      + len (echoed self last_message)))))]).
Proof.
  intros Hlast. unfold _generate. rewrite index_last_spec, Hlast. reflexivity.
Qed.

Lemma slice_to_prefix (s : string) (n : Z) :
  exists rest, s = slice_to s n +:+ rest.
Proof. apply substring_0_split. Qed.

Lemma slice_to_len (s : string) (n : Z) :
  len (slice_to s n) = adjust_stop n (len s).
Proof.
  unfold slice_to, len at 1. rewrite substring_0_length.
  pose proof (len_nonneg s) as Hs. unfold len in *.
  unfold adjust_stop.
  destruct (Z.ltb_spec n 0);
    [destruct (Z.ltb_spec (n + Z.of_nat (String.length s)) 0)
    |destruct (Z.leb_spec (Z.of_nat (String.length s)) n)];
    lia.
Qed.

Lemma slice_to_nonneg (s : string) (n : Z) :
  0 <= n -> slice_to s n = truncated n s.
Proof.
  intros Hn. unfold slice_to, truncated, adjust_stop.
  destruct (Z.ltb_spec n 0); [lia|].
  destruct (Z.leb_spec (len s) n) as [Hle|]; [|reflexivity].
  unfold len in *.
  rewrite !substring_0_all by lia. reflexivity.
Qed.

Lemma slice_to_first_characters (s : string) (n : Z) :
  0 <= n -> first_characters n s (slice_to s n).
Proof.
  intros Hn. split.
  - intros Hlt. unfold slice_to, adjust_stop.
    destruct (Z.ltb_spec n 0); [lia|].
    destruct (Z.leb_spec (len s) n); [|lia].
    apply substring_0_all. unfold len. lia.
  - intros Hle. split; [apply slice_to_prefix|].
    rewrite slice_to_len. unfold adjust_stop.
    destruct (Z.ltb_spec n 0); [lia|].
    destruct (Z.leb_spec (len s) n); lia.
Qed.

End Generate.

(** C1, as stated, fails: with [parrot_buffer_length = -1] the model answers
    "hello" with "hell", which is not the first -1 characters of "hello". *)
Lemma generate_echoes_first_counterexample :
  ~ generate_echoes_first (new_ChatParrotLink (-1) "my_custom_model")
      [HumanMessage "hello"] None None.
Proof.
  intros (last_message & msg & Hlast & Hgen & Hfirst).
  injection Hlast as <-. injection Hgen as <-.
  destruct Hfirst as [_ Hge]. destruct Hge as [_ Hlen]; [vm_compute; discriminate|].
  vm_compute in Hlen. discriminate.
Qed.

(** C1 (amended): for every non-empty list of input messages [_generate]
    returns a result with exactly one generation.  When
    [parrot_buffer_length] is not negative, the content of its message is the
    first [parrot_buffer_length] characters of the content of the last
    message (the whole content when it is shorter); when it is negative, the
    content is the last message's content without its last
    [-parrot_buffer_length] characters. *)
Theorem generate_echo (self : ChatParrotLink) (messages : list BaseMessage)
    (stop : option (list string))
    (run_manager : option CallbackManagerForLLMRun) :
  messages <> [] ->
  exists last_message msg,
    last messages = Some last_message /\
    _generate self messages stop run_manager
      = Ok (mkResult [mkGeneration msg]) /\
    (0 <= parrot_buffer_length self ->
     first_characters (parrot_buffer_length self) (content last_message)
       (content msg)) /\
    (parrot_buffer_length self < 0 ->
     (exists rest, content last_message = content msg +:+ rest) /\
     len (content msg)
       = Z.max 0 (len (content last_message) + parrot_buffer_length self)).
Proof.
  intros Hne. apply last_is_Some in Hne as [last_message Hlast].
  exists last_message. eexists. split; [exact Hlast|].
  split; [apply generate_run; exact Hlast|]. cbn [content AIMessage].
  split.
  - apply slice_to_first_characters.
  - intros Hneg. split; [apply slice_to_prefix|].
    unfold echoed. rewrite slice_to_len. unfold adjust_stop.
    destruct (Z.ltb_spec (parrot_buffer_length self) 0); [|lia].
    destruct (Z.ltb_spec
                (parrot_buffer_length self + len (content last_message)) 0);
      lia.
Qed.

Lemma generate_echo_witness :
  [HumanMessage "hello!"; AIMessage "Hi there human!" ∅ ∅ None;
   HumanMessage "Meow!"] <> [] /\
  exists last_message msg,
    last [HumanMessage "hello!"; AIMessage "Hi there human!" ∅ ∅ None;
          HumanMessage "Meow!"] = Some last_message /\
    _generate model
      [HumanMessage "hello!"; AIMessage "Hi there human!" ∅ ∅ None;
       HumanMessage "Meow!"] None None
      = Ok (mkResult [mkGeneration msg]) /\
    (0 <= parrot_buffer_length model ->
     first_characters (parrot_buffer_length model) (content last_message)
       (content msg)) /\
    (parrot_buffer_length model < 0 ->
     (exists rest, content last_message = content msg +:+ rest) /\
     len (content msg)
       = Z.max 0 (len (content last_message) + parrot_buffer_length model)).
Proof.
  split; [discriminate|].
  apply (generate_echo model
           [HumanMessage "hello!"; AIMessage "Hi there human!" ∅ ∅ None;
            HumanMessage "Meow!"] None None).
  discriminate.
Defined.

(** C2, as stated, fails on the notebook's own conversation: the model
    answers with "Meo", taken from the last message, while the prompt starts
    with "hel". *)
Lemma generate_truncates_prompt_counterexample :
  ~ generate_truncates_prompt model
      [HumanMessage "hello!"; AIMessage "Hi there human!" ∅ ∅ None;
       HumanMessage "Meow!"] None None.
Proof.
  intros (msg & Hgen & Htrunc).
  injection Hgen as <-. vm_compute in Htrunc. discriminate.
Qed.

(** C2 (amended): for every non-empty input and every non-negative
    [parrot_buffer_length], the content of the message returned by
    [_generate] equals the content of the last input message truncated to
    [parrot_buffer_length] characters; when the input is a single message,
    this is the input prompt truncated to [parrot_buffer_length]
    characters. *)
Theorem generate_truncates_last (self : ChatParrotLink)
    (messages : list BaseMessage) (stop : option (list string))
    (run_manager : option CallbackManagerForLLMRun) :
  messages <> [] ->
  0 <= parrot_buffer_length self ->
  exists last_message msg,
    last messages = Some last_message /\
    _generate self messages stop run_manager
      = Ok (mkResult [mkGeneration msg]) /\
    content msg = truncated (parrot_buffer_length self) (content last_message) /\
    (messages = [last_message] ->
     generate_truncates_prompt self messages stop run_manager).
Proof.
  intros Hne Hn. apply last_is_Some in Hne as [last_message Hlast].
  pose proof (generate_run self stop run_manager _ _ Hlast) as Hgen.
  exists last_message. eexists. split; [exact Hlast|].
  split; [exact Hgen|]. cbn [content AIMessage].
  split; [apply slice_to_nonneg; exact Hn|].
  intros ->. eexists. split; [exact Hgen|].
  cbn [content AIMessage]. apply slice_to_nonneg. exact Hn.
Qed.

Lemma generate_truncates_last_witness :
  [HumanMessage "goodbye"] <> [] /\
  0 <= parrot_buffer_length model /\
  exists last_message msg,
    last [HumanMessage "goodbye"] = Some last_message /\
    _generate model [HumanMessage "goodbye"] None None
      = Ok (mkResult [mkGeneration msg]) /\
    content msg = truncated (parrot_buffer_length model) (content last_message) /\
    ([HumanMessage "goodbye"] = [last_message] ->
     generate_truncates_prompt model [HumanMessage "goodbye"] None None).
Proof.
  split; [discriminate|]. split; [vm_compute; discriminate|].
  apply (generate_truncates_last model [HumanMessage "goodbye"] None None).
  - discriminate.
  - vm_compute. discriminate.
Defined.

(** ** [_generate]: usage metadata *)

(** C3: for every non-empty list of input messages, the usage metadata
    reported by [_generate] has [input_tokens] equal to the sum of the
    content lengths of all input messages, [output_tokens] equal to the
    length of the echoed output, and [total_tokens] equal to their sum. *)
Theorem generate_usage (self : ChatParrotLink) (messages : list BaseMessage)
    (stop : option (list string))
    (run_manager : option CallbackManagerForLLMRun) :
  messages <> [] ->
  exists msg usage,
    _generate self messages stop run_manager
      = Ok (mkResult [mkGeneration msg]) /\
    usage_metadata msg = Some usage /\
    input_tokens usage = Z.of_nat (total_content_length messages) /\
    output_tokens usage = Z.of_nat (String.length (content msg)) /\
    total_tokens usage = input_tokens usage + output_tokens usage.
Proof.
  intros Hne. apply last_is_Some in Hne as [last_message Hlast].
  do 2 eexists. split; [apply generate_run; exact Hlast|].
  cbn [usage_metadata content AIMessage input_tokens output_tokens total_tokens].
  split; [reflexivity|].
  split; [apply count_input_tokens_total|].
  split; reflexivity.
Qed.

Lemma generate_usage_witness :
  [HumanMessage "hello!"; AIMessage "Hi there human!" ∅ ∅ None;
   HumanMessage "Meow!"] <> [] /\
  exists msg usage,
    _generate model
      [HumanMessage "hello!"; AIMessage "Hi there human!" ∅ ∅ None;
       HumanMessage "Meow!"] None None
      = Ok (mkResult [mkGeneration msg]) /\
    usage_metadata msg = Some usage /\
    input_tokens usage
      = Z.of_nat (total_content_length
                    [HumanMessage "hello!";
                     AIMessage "Hi there human!" ∅ ∅ None;
                     HumanMessage "Meow!"]) /\
    output_tokens usage = Z.of_nat (String.length (content msg)) /\
    total_tokens usage = input_tokens usage + output_tokens usage.
Proof.
  split; [discriminate|].
  apply (generate_usage model
           [HumanMessage "hello!"; AIMessage "Hi there human!" ∅ ∅ None;
            HumanMessage "Meow!"] None None).
  discriminate.
Defined.

(** ** [_stream] and [_generate] produce the same text *)

Section StreamedText.

Lemma string_app_nil_r (s : string) : s +:+ "" = s.
Proof.
  induction s as [|c s IH]; [reflexivity|].
  change (String c (s +:+ "") = String c s). f_equal. exact IH.
Qed.

Lemma concat_empty_cons (x : string) (xs : list string) :
  String.concat "" (x :: xs) = x +:+ String.concat "" xs.
Proof. destruct xs; simpl; [rewrite string_app_nil_r|]; reflexivity. Qed.

Lemma concat_empty_snoc (xs : list string) :
  String.concat "" (xs ++ [EmptyString]) = String.concat "" xs.
Proof.
  induction xs as [|x xs IH]; [reflexivity|].
  rewrite <- app_comm_cons, !concat_empty_cons, IH. reflexivity.
Qed.

Lemma content_chunks_contents (ct : Z) (tokens : list string) :
  map (fun c => content (chunk_message c)) (content_chunks ct tokens) = tokens.
Proof.
  destruct tokens as [|t ts]; [reflexivity|].
  cbn. f_equal. induction ts as [|t' ts IH]; [reflexivity|].
  cbn. f_equal. exact IH.
Qed.

Lemma streamed_text_content_chunks (ct : Z) (s : string) :
  streamed_text (content_chunks ct (chars s)) = s.
Proof.
  unfold streamed_text. rewrite content_chunks_contents. apply chars_concat.
Qed.

Lemma streamed_text_final (self : ChatParrotLink)
    (chunks : list ChatGenerationChunk) :
  streamed_text (chunks ++ [final_chunk self]) = streamed_text chunks.
Proof.
  unfold streamed_text. rewrite map_app. apply concat_empty_snoc.
Qed.

Lemma stream_text (self : ChatParrotLink) (messages : list BaseMessage)
    (last_message : BaseMessage) (stop : option (list string))
    (run_manager : option CallbackManagerForLLMRun) :
  last messages = Some last_message ->
  streamed_text (yielded (_stream self messages stop run_manager))
  = echoed self last_message.
Proof.
  intros Hlast. rewrite (stream_run_start _ _ _ _ _ Hlast). cbv zeta.
  destruct (notified run_manager _);
    [destruct (last (chars (echoed self last_message)))|];
    cbn [yielded]; rewrite ?streamed_text_final;
    apply streamed_text_content_chunks.
Qed.

End StreamedText.

(** C4: for every non-empty list of input messages, the concatenation of the
    contents of all chunks yielded by [_stream] equals the content of the
    single message returned by [_generate] on the same input. *)
Theorem stream_text_eq_generate (self : ChatParrotLink)
    (messages : list BaseMessage) (stop : option (list string))
    (run_manager run_manager' : option CallbackManagerForLLMRun) :
  messages <> [] ->
  exists msg,
    _generate self messages stop run_manager'
      = Ok (mkResult [mkGeneration msg]) /\
    streamed_text (yielded (_stream self messages stop run_manager))
      = content msg.
Proof.
  intros Hne. apply last_is_Some in Hne as [last_message Hlast].
  eexists. split; [apply generate_run; exact Hlast|].
  cbn [content AIMessage]. apply stream_text. exact Hlast.
Qed.

Lemma stream_text_eq_generate_witness :
  [HumanMessage "cat"] <> [] /\
  exists msg,
    _generate model [HumanMessage "cat"] None None
      = Ok (mkResult [mkGeneration msg]) /\
    streamed_text
      (yielded (_stream model [HumanMessage "cat"] None (Some (mkManager []))))
      = content msg.
Proof.
  split; [discriminate|].
  apply (stream_text_eq_generate model [HumanMessage "cat"] None
           (Some (mkManager [])) None).
  discriminate.
Defined.

(** ** Configuration fields that are not read *)

(** C5: two models that agree on [parrot_buffer_length] and [model_name]
    return the same result from [_generate] and run [_stream] identically
    (same chunks, hence same contents and usage metadata), on every input,
    whatever their [temperature], [max_tokens], [timeout], [stop] and
    [max_retries]. *)
Theorem unread_fields_have_no_effect (self self' : ChatParrotLink) :
  parrot_buffer_length self = parrot_buffer_length self' ->
  model_name self = model_name self' ->
  forall (messages : list BaseMessage) (stop : option (list string))
         (run_manager : option CallbackManagerForLLMRun),
    _generate self messages stop run_manager
      = _generate self' messages stop run_manager /\
    _stream self messages stop run_manager
      = _stream self' messages stop run_manager.
Proof.
  intros Hlen Hname messages stop run_manager.
  unfold _generate, _stream. rewrite Hlen, Hname. split; reflexivity.
Qed.

Lemma unread_fields_have_no_effect_witness :
  parrot_buffer_length bird_brain = parrot_buffer_length bird_brain_tuned /\
  model_name bird_brain = model_name bird_brain_tuned /\
  _generate bird_brain [HumanMessage "hello"] None None
    = _generate bird_brain_tuned [HumanMessage "hello"] None None /\
  _stream bird_brain [HumanMessage "hello"] None None
    = _stream bird_brain_tuned [HumanMessage "hello"] None None.
Proof.
  split; [reflexivity|]. split; [reflexivity|].
  apply (unread_fields_have_no_effect bird_brain bird_brain_tuned);
    reflexivity.
Defined.

(** ** The empty list of messages *)

(** C8: on the empty list of messages [_generate] raises [IndexError] and
    [_stream] raises [IndexError] before it yields a chunk or calls the run
    manager; on a non-empty list neither of them raises [IndexError]. *)
Theorem index_error_iff_empty (self : ChatParrotLink)
    (messages : list BaseMessage) (stop : option (list string))
    (run_manager : option CallbackManagerForLLMRun) :
  match messages with
  | [] =>
      _generate self messages stop run_manager = Raise IndexError /\
      _stream self messages stop run_manager
        = mkRun [] run_manager (Raise IndexError)
  | _ :: _ =>
      _generate self messages stop run_manager <> Raise IndexError /\
      outcome (_stream self messages stop run_manager) <> Raise IndexError
  end.
Proof.
  destruct messages as [|m ms]; [split; reflexivity|].
  destruct (proj2 (last_is_Some (m :: ms))) as [last_message Hlast];
    [discriminate|].
  split.
  - rewrite (generate_run _ _ _ _ _ Hlast). discriminate.
  - rewrite (stream_run_start _ _ _ _ _ Hlast). cbv zeta.
    destruct (notified run_manager _);
      [destruct (last (chars (echoed self last_message)))|];
      cbn [outcome]; discriminate.
Qed.

(** ** The chunks of a stream *)

Section StreamChunks.

Variable self : ChatParrotLink.
Variable stop : option (list string).

Lemma chars_lookup (s : string) (i : nat) :
  chars s !! i = (fun c => String c EmptyString) <$> String.get i s.
Proof.
  revert i. induction s as [|c s IH]; intros [|i]; try reflexivity.
  cbn. apply IH.
Qed.

Lemma content_chunks_length (ct : Z) (tokens : list string) :
  length (content_chunks ct tokens) = length tokens.
Proof.
  rewrite <- (content_chunks_contents ct tokens) at 2.
  rewrite length_map. reflexivity.
Qed.

Lemma final_chunk_model_name :
  response_metadata (chunk_message (final_chunk self)) !! "model_name"
  = Some (VStr (model_name self)).
Proof.
  cbn. rewrite lookup_insert_ne by discriminate. apply lookup_insert_eq.
Qed.

(** X8: The shape of a stream that ends normally: one chunk per character of the
    echoed text, in order, then the closing chunk. *)
Lemma stream_chunks (messages : list BaseMessage) (last_message : BaseMessage)
    (run_manager : option CallbackManagerForLLMRun) :
  last messages = Some last_message ->
  (run_manager = None \/ echoed self last_message <> EmptyString) ->
  let chunks := yielded (_stream self messages stop run_manager) in
  length chunks = S (String.length (echoed self last_message)) /\
  (forall i c,
     String.get i (echoed self last_message) = Some c ->
     (fun ch => content (chunk_message ch)) <$> chunks !! i
       = Some (String c EmptyString)) /\
  last chunks = Some (final_chunk self) /\
  content (chunk_message (final_chunk self)) = EmptyString /\
  response_metadata (chunk_message (final_chunk self)) !! "model_name"
    = Some (VStr (model_name self)).
Proof.
  intros Hlast Hcase chunks. subst chunks.
  destruct (stream_run_yielded self stop _ _ _ Hlast Hcase) as [-> _].
  split; [|split; [|split; [|split]]].
  - rewrite length_app, content_chunks_length, chars_length. cbn. lia.
  - intros i c Hget.
    assert (chars (echoed self last_message) !! i = Some (String c EmptyString))
      as Hi by (rewrite chars_lookup, Hget; reflexivity).
    rewrite lookup_app_l
      by (rewrite content_chunks_length; eapply lookup_lt_Some; exact Hi).
    rewrite <- list_lookup_fmap.
    change (fmap (M := list) ?f ?l) with (map f l).
    rewrite content_chunks_contents. exact Hi.
  - apply last_snoc.
  - reflexivity.
  - apply final_chunk_model_name.
Qed.

Lemma sum_app (xs ys : list Z) : sum (xs ++ ys) = sum xs + sum ys.
Proof.
  induction xs as [|x xs IH]; [reflexivity|].
  rewrite <- app_comm_cons, !sum_cons, IH. lia.
Qed.

Lemma sum_input_tokens_zero (tokens : list string) :
  sum (map chunk_input_tokens (map (content_chunk 0) tokens)) = 0.
Proof.
  induction tokens as [|t ts IH]; [reflexivity|].
  cbn [map]. rewrite sum_cons, IH. reflexivity.
Qed.

Lemma sum_output_tokens (ct : Z) (tokens : list string) :
  sum (map chunk_output_tokens (content_chunks ct tokens))
  = Z.of_nat (length tokens).
Proof.
  destruct tokens as [|t ts]; [reflexivity|].
  cbn [content_chunks map]. rewrite sum_cons.
  assert (sum (map chunk_output_tokens (map (content_chunk 0) ts))
          = Z.of_nat (length ts)) as ->.
  { induction ts as [|t' ts IH]; [reflexivity|].
    cbn [map]. rewrite sum_cons, IH. cbn [length chunk_output_tokens]. 
    unfold chunk_output_tokens. cbn. lia. }
  unfold chunk_output_tokens. cbn. lia.
Qed.

(** C9 (amended): for every non-empty list of input messages whose truncated
    last-message content is not empty, the input token counts of the chunks
    yielded by [_stream] sum to the total content length of the input
    messages (the first content chunk reports the whole count, the later
    content chunks report 0), every content chunk reports one output token,
    so that the output token counts sum to the length of the truncated
    output, and the closing chunk has no usage metadata. *)
Theorem stream_usage (messages : list BaseMessage) (last_message : BaseMessage)
    (run_manager : option CallbackManagerForLLMRun) :
  last messages = Some last_message ->
  echoed self last_message <> EmptyString ->
  let chunks := yielded (_stream self messages stop run_manager) in
  sum (map chunk_input_tokens chunks) = Z.of_nat (total_content_length messages) /\
  sum (map chunk_output_tokens chunks) = len (echoed self last_message) /\
  (exists first rest,
     chunks = first :: rest ++ [final_chunk self] /\
     chunk_input_tokens first = Z.of_nat (total_content_length messages) /\
     Forall (fun c => chunk_input_tokens c = 0) rest /\
     Forall (fun c => chunk_output_tokens c = 1) (first :: rest)) /\
  usage_metadata (chunk_message (final_chunk self)) = None.
Proof.
  intros Hlast Hne chunks. subst chunks.
  destruct (stream_run_yielded self stop _ _ run_manager Hlast
              (or_intror Hne)) as [-> _].
  rewrite !map_app, !sum_app, sum_output_tokens, chars_length.
  destruct (chars (echoed self last_message)) as [|t ts] eqn:Etokens;
    [apply chars_nil in Etokens; contradiction|].
  cbn [content_chunks map]. rewrite sum_cons, sum_input_tokens_zero.
  split; [|split; [|split]].
  - cbn. rewrite count_input_tokens_total. lia.
  - cbn. unfold len. lia.
  - exists (content_chunk (count_input_tokens messages) t),
      (map (content_chunk 0) ts).
    split; [reflexivity|]. split; [apply count_input_tokens_total|].
    split; [|constructor; [reflexivity|]];
      apply Forall_forall; intros c Hin;
      apply list_elem_of_fmap in Hin as (t' & -> & _);
      reflexivity.
  - reflexivity.
Qed.

End StreamChunks.

(** C9, as stated, fails when nothing is echoed: the only chunk is the closing
    one, which has no usage metadata, and the 5 input characters are not
    reported by any chunk. *)
Lemma stream_conserves_input_tokens_counterexample :
  ~ stream_conserves_input_tokens model
      [HumanMessage "hello"; HumanMessage ""] None None.
Proof. unfold stream_conserves_input_tokens. vm_compute. discriminate. Qed.

Lemma stream_usage_witness :
  last [HumanMessage "cat"] = Some (HumanMessage "cat") /\
  echoed model (HumanMessage "cat") <> EmptyString /\
  let chunks :=
    yielded (_stream model [HumanMessage "cat"] None (Some (mkManager []))) in
  sum (map chunk_input_tokens chunks)
    = Z.of_nat (total_content_length [HumanMessage "cat"]) /\
  sum (map chunk_output_tokens chunks) = len (echoed model (HumanMessage "cat")) /\
  (exists first rest,
     chunks = first :: rest ++ [final_chunk model] /\
     chunk_input_tokens first
       = Z.of_nat (total_content_length [HumanMessage "cat"]) /\
     Forall (fun c => chunk_input_tokens c = 0) rest /\
     Forall (fun c => chunk_output_tokens c = 1) (first :: rest)) /\
  usage_metadata (chunk_message (final_chunk model)) = None.
Proof.
  split; [reflexivity|]. split; [vm_compute; discriminate|].
  apply (stream_usage model None [HumanMessage "cat"] (HumanMessage "cat")
           (Some (mkManager []))).
  - reflexivity.
  - vm_compute. discriminate.
Defined.

(** C10: the claim fails on the code when a run manager is given and nothing
    is echoed.  The truncated content has length 0, so one chunk (the closing
    one) is expected; [_stream] yields no chunk and raises
    [UnboundLocalError], because the call on the run manager after the loop
    reads the loop variable [token], which was never assigned. *)
Theorem stream_unbound_token :
  String.length (echoed model (HumanMessage "")) = 0%nat /\
  _stream model [HumanMessage ""] None (Some (mkManager []))
  = mkRun [] (Some (mkManager [])) (Raise UnboundLocalError).
Proof. split; reflexivity. Qed.

(** ** The notebook's recorded outputs, replayed *)

Example invoke_conversation :
  exists m,
    _generate model
      [HumanMessage "hello!"; AIMessage "Hi there human!" ∅ ∅ None;
       HumanMessage "Meow!"] None None
      = Ok (mkResult [mkGeneration m])
    /\ content m = "Meo"%string
    /\ usage_metadata m = Some (mkUsage 26 3 29).
Proof. eexists. split; [reflexivity|]. split; reflexivity. Qed.

Example invoke_goodbye :
  exists m,
    _generate model [HumanMessage "goodbye"] None None
      = Ok (mkResult [mkGeneration m])
    /\ content m = "goo"%string
    /\ usage_metadata m = Some (mkUsage 7 3 10).
Proof. eexists. split; [reflexivity|]. split; reflexivity. Qed.

Example stream_cat_usage :
  map (fun c => usage_metadata (chunk_message c))
      (yielded (_stream model [HumanMessage "cat"] None (Some (mkManager []))))
  = [Some (mkUsage 3 1 4); Some (mkUsage 0 1 1); Some (mkUsage 0 1 1); None].
Proof. reflexivity. Qed.

Example stream_cat_callbacks :
  (fun m => map fst (new_tokens m))
    <$> manager (_stream model [HumanMessage "cat"] None (Some (mkManager [])))
  = Some ["c"; "a"; "t"; "t"]%string.
Proof. reflexivity. Qed.

Example generate_hello :
  exists m, _generate (new_ChatParrotLink 3 "my_custom_model")
              [HumanMessage "hello"] None None = Ok (mkResult [mkGeneration m])
            /\ content m = "hel"%string
            /\ usage_metadata m = Some (mkUsage 5 3 8).
Proof. eexists. split; [reflexivity|]. split; reflexivity. Qed.

Example stream_cat :
  map (fun c => content (chunk_message c))
      (yielded (_stream model [HumanMessage "cat"] None None))
  = ["c"; "a"; "t"; ""]%string.
Proof. reflexivity. Qed.

(** ** More on [_generate]: what the reply can be *)

Section GenerateMore.

Variable self : ChatParrotLink.
Variable stop : option (list string).
Variable run_manager : option CallbackManagerForLLMRun.

Lemma substring_0_substring (k k' : nat) (s : string) :
  (k <= k')%nat -> substring 0 k (substring 0 k' s) = substring 0 k s.
Proof.
  revert k' s. induction k as [|k IH]; intros [|k'] [|c s] Hle;
    try reflexivity; try lia.
  cbn. rewrite IH by lia. reflexivity.
Qed.

Lemma adjust_stop_range (n l : Z) :
  0 <= l -> 0 <= adjust_stop n l <= l.
Proof.
  intros Hl. unfold adjust_stop.
  destruct (Z.ltb_spec n 0);
    [destruct (Z.ltb_spec (n + l) 0)|destruct (Z.leb_spec l n)]; lia.
Qed.

Lemma count_input_tokens_app (xs ys : list BaseMessage) :
  count_input_tokens (xs ++ ys) = count_input_tokens xs + count_input_tokens ys.
Proof.
  rewrite !count_input_tokens_total. unfold total_content_length.
  rewrite sum_list_with_app. lia.
Qed.

Lemma count_input_tokens_single (m : BaseMessage) :
  count_input_tokens [m] = len (content m).
Proof. rewrite count_input_tokens_total. cbn. unfold len. lia. Qed.

Lemma count_input_tokens_nonneg (xs : list BaseMessage) :
  0 <= count_input_tokens xs.
Proof. rewrite count_input_tokens_total. lia. Qed.

Lemma echoed_len_le (m : BaseMessage) :
  0 <= len (echoed self m) <= len (content m).
Proof.
  unfold echoed. rewrite slice_to_len.
  apply adjust_stop_range, len_nonneg.
Qed.

(** X1: The reply never holds anything but a prefix of the last message: for
    every history, every last message and every [parrot_buffer_length]
    (negative ones included) the returned content starts the last message's
    content, is no longer than it, and is no longer than a non-negative
    [parrot_buffer_length]. *)
Theorem generate_content_prefix (history : list BaseMessage) (m : BaseMessage) :
  exists msg,
    _generate self (history ++ [m]) stop run_manager
      = Ok (mkResult [mkGeneration msg]) /\
    (exists rest, content m = content msg +:+ rest) /\
    len (content msg) <= len (content m) /\
    (0 <= parrot_buffer_length self ->
     len (content msg) <= parrot_buffer_length self).
Proof.
  eexists. split; [apply generate_run, last_snoc|].
  cbn [content AIMessage].
  split; [apply slice_to_prefix|]. split; [apply echoed_len_le|].
  intros Hn. unfold echoed. rewrite slice_to_len. unfold adjust_stop.
  destruct (Z.ltb_spec (parrot_buffer_length self) 0); [lia|].
  destruct (Z.leb_spec (len (content m)) (parrot_buffer_length self)); lia.
Qed.

(** X2: The usage metadata of a reply is ordered: the output count is between 0
    and the input count, and the total is between the input count and twice
    the input count. *)
Theorem generate_usage_bounds (history : list BaseMessage) (m : BaseMessage) :
  exists msg usage,
    _generate self (history ++ [m]) stop run_manager
      = Ok (mkResult [mkGeneration msg]) /\
    usage_metadata msg = Some usage /\
    0 <= output_tokens usage <= input_tokens usage /\
    input_tokens usage <= total_tokens usage <= 2 * input_tokens usage.
Proof.
  do 2 eexists. split; [apply generate_run, last_snoc|].
  split; [reflexivity|].
  cbn [input_tokens output_tokens total_tokens].
  rewrite count_input_tokens_app, count_input_tokens_single.
  pose proof (count_input_tokens_nonneg history).
  pose proof (echoed_len_le m). lia.
Qed.

(** X3: Only the last message decides the reply: whatever the history, the
    content and the output count are those of the reply to the last message
    alone, and the input count is that of the last message alone plus the
    content lengths of the history. *)
Theorem generate_history (history : list BaseMessage) (m : BaseMessage) :
  exists msg msg1 usage usage1,
    _generate self (history ++ [m]) stop run_manager
      = Ok (mkResult [mkGeneration msg]) /\
    _generate self [m] stop run_manager = Ok (mkResult [mkGeneration msg1]) /\
    content msg = content msg1 /\
    usage_metadata msg = Some usage /\
    usage_metadata msg1 = Some usage1 /\
    output_tokens usage = output_tokens usage1 /\
    input_tokens usage
      = Z.of_nat (total_content_length history) + input_tokens usage1.
Proof.
  do 4 eexists. split; [apply generate_run, last_snoc|].
  split; [apply generate_run; reflexivity|].
  cbn [content AIMessage usage_metadata input_tokens output_tokens].
  repeat split.
  rewrite count_input_tokens_app, count_input_tokens_total. reflexivity.
Qed.

(** X4: The reply is empty exactly when the last message is empty, or
    [parrot_buffer_length] is 0, or it is negative and drops the whole
    message. *)
Theorem generate_empty_iff (history : list BaseMessage) (m : BaseMessage) :
  exists msg,
    _generate self (history ++ [m]) stop run_manager
      = Ok (mkResult [mkGeneration msg]) /\
    (content msg = EmptyString <->
     content m = EmptyString \/ parrot_buffer_length self = 0 \/
     parrot_buffer_length self <= - len (content m)).
Proof.
  eexists. split; [apply generate_run, last_snoc|].
  cbn [content AIMessage].
  assert (forall s : string, s = EmptyString <-> len s = 0) as Hlen0.
  { intros [|c s]; unfold len; cbn; split; intros; try reflexivity;
      try discriminate; lia. }
  rewrite (Hlen0 (echoed self m)), (Hlen0 (content m)).
  unfold echoed. rewrite slice_to_len. unfold adjust_stop.
  pose proof (len_nonneg (content m)).
  destruct (Z.ltb_spec (parrot_buffer_length self) 0);
    [destruct (Z.ltb_spec (parrot_buffer_length self + len (content m)) 0)
    |destruct (Z.leb_spec (len (content m)) (parrot_buffer_length self))];
    lia.
Qed.

End GenerateMore.

(** X5: Echoing is idempotent for a non-negative [parrot_buffer_length]: when the
    reply is sent back as the last message of any conversation, the model
    returns its content unchanged. *)
Theorem generate_idempotent (self : ChatParrotLink)
    (history : list BaseMessage) (m : BaseMessage)
    (stop : option (list string))
    (run_manager : option CallbackManagerForLLMRun) :
  0 <= parrot_buffer_length self ->
  exists reply,
    _generate self (history ++ [m]) stop run_manager
      = Ok (mkResult [mkGeneration reply]) /\
    forall history' : list BaseMessage,
      exists reply',
        _generate self (history' ++ [reply]) stop run_manager
          = Ok (mkResult [mkGeneration reply']) /\
        content reply' = content reply.
Proof.
  intros Hn. eexists. split; [apply generate_run, last_snoc|].
  intros history'. eexists. split; [apply generate_run, last_snoc|].
  cbn [content AIMessage]. unfold echoed at 1. cbn [content AIMessage].
  unfold echoed. rewrite !slice_to_nonneg by exact Hn.
  apply substring_0_substring. lia.
Qed.

Lemma generate_idempotent_witness :
  0 <= parrot_buffer_length model /\
  exists reply,
    _generate model ([HumanMessage "hello!"] ++ [HumanMessage "Meow!"])
      None None
      = Ok (mkResult [mkGeneration reply]) /\
    forall history' : list BaseMessage,
      exists reply',
        _generate model (history' ++ [reply]) None None
          = Ok (mkResult [mkGeneration reply']) /\
        content reply' = content reply.
Proof.
  split; [vm_compute; discriminate|].
  apply (generate_idempotent model [HumanMessage "hello!"]
           (HumanMessage "Meow!") None None).
  vm_compute. discriminate.
Defined.

(** X6: A longer buffer only adds characters: for two models with non-negative
    buffer lengths [n <= n'], the reply of the first is a prefix of the reply
    of the second on the same conversation. *)
Theorem generate_monotone (self self' : ChatParrotLink)
    (history : list BaseMessage) (m : BaseMessage)
    (stop : option (list string))
    (run_manager : option CallbackManagerForLLMRun) :
  0 <= parrot_buffer_length self ->
  parrot_buffer_length self <= parrot_buffer_length self' ->
  exists msg msg',
    _generate self (history ++ [m]) stop run_manager
      = Ok (mkResult [mkGeneration msg]) /\
    _generate self' (history ++ [m]) stop run_manager
      = Ok (mkResult [mkGeneration msg']) /\
    exists rest, content msg' = content msg +:+ rest.
Proof.
  intros Hn Hle. do 2 eexists.
  split; [apply generate_run, last_snoc|].
  split; [apply generate_run, last_snoc|].
  cbn [content AIMessage]. unfold echoed.
  rewrite !slice_to_nonneg by lia. unfold truncated.
  rewrite <- (substring_0_substring
                (Z.to_nat (parrot_buffer_length self))
                (Z.to_nat (parrot_buffer_length self')) (content m)) by lia.
  apply substring_0_split.
Qed.

Lemma generate_monotone_witness :
  0 <= parrot_buffer_length bird_brain /\
  parrot_buffer_length bird_brain <= parrot_buffer_length model /\
  exists msg msg',
    _generate bird_brain ([] ++ [HumanMessage "hello"]) None None
      = Ok (mkResult [mkGeneration msg]) /\
    _generate model ([] ++ [HumanMessage "hello"]) None None
      = Ok (mkResult [mkGeneration msg']) /\
    exists rest, content msg' = content msg +:+ rest.
Proof.
  split; [vm_compute; discriminate|]. split; [vm_compute; discriminate|].
  apply (generate_monotone bird_brain model [] (HumanMessage "hello") None None);
    vm_compute; discriminate.
Defined.

(** ** More on [_stream]: how a stream ends and what it reports *)

Section StreamMore.

Variable self : ChatParrotLink.
Variable stop : option (list string).

Lemma stream_yielded_cases (messages : list BaseMessage)
    (last_message : BaseMessage) (rm : option CallbackManagerForLLMRun) :
  last messages = Some last_message ->
  yielded (_stream self messages stop rm)
  = content_chunks (count_input_tokens messages)
      (chars (echoed self last_message)) ++ [final_chunk self]
  \/ yielded (_stream self messages stop rm) = [].
Proof.
  intros Hlast.
  destruct rm as [m0|]; [destruct (echoed self last_message) eqn:E|].
  - right. rewrite (stream_run_manager_empty self stop _ _ m0 Hlast E).
    reflexivity.
  - left.
    destruct (stream_run_yielded self stop messages last_message (Some m0) Hlast)
      as [Hy _]; [right; rewrite E; discriminate|].
    rewrite Hy, E. reflexivity.
  - left. rewrite (stream_run_no_manager self stop _ _ Hlast). reflexivity.
Qed.

(** X7: How a stream over a non-empty conversation ends: with a run manager and
    an empty echo it raises [UnboundLocalError], having yielded nothing and
    left the run manager as it was; in every other case it ends normally. *)
Theorem stream_outcome (history : list BaseMessage) (m : BaseMessage)
    (rm : option CallbackManagerForLLMRun) :
  match rm, echoed self m with
  | Some _, EmptyString =>
      _stream self (history ++ [m]) stop rm
        = mkRun [] rm (Raise UnboundLocalError)
  | _, _ => outcome (_stream self (history ++ [m]) stop rm) = Ok tt
  end.
Proof.
  pose proof (last_snoc m history) as Hlast.
  destruct rm as [m0|]; [destruct (echoed self m) eqn:E|].
  - apply stream_run_manager_empty with (last_message := m); assumption.
  - apply (stream_run_yielded self stop _ m (Some m0) Hlast).
    right. rewrite E. discriminate.
  - rewrite (stream_run_no_manager self stop _ _ Hlast). reflexivity.
Qed.

(** X9: The calls a stream makes on its run manager when it echoes at least one
    character: the calls already recorded are kept, and one
    [on_llm_new_token] call is added per yielded chunk, in the order of the
    chunks and with that chunk.  The token of a content chunk's call is its
    character; the closing chunk is reported with the last echoed character,
    not with its own empty content. *)
Theorem stream_callbacks (history : list BaseMessage) (m : BaseMessage)
    (m0 : CallbackManagerForLLMRun) :
  echoed self m <> EmptyString ->
  exists last_token,
    last (chars (echoed self m)) = Some last_token /\
    manager (_stream self (history ++ [m]) stop (Some m0))
    = Some (mkManager
              (new_tokens m0
               ++ zip (chars (echoed self m) ++ [last_token])
                      (yielded (_stream self (history ++ [m]) stop (Some m0))))).
Proof.
  intros Hne. pose proof (last_snoc m history) as Hlast.
  destruct (proj2 (last_is_Some (chars (echoed self m)))) as [t Ht].
  { intros Hnil. apply chars_nil in Hnil. contradiction. }
  exists t. split; [exact Ht|].
  rewrite (stream_run_start self stop _ _ _ Hlast). cbv zeta.
  destruct m0 as [log]. cbn [notified fmap option_fmap option_map new_tokens].
  rewrite Ht. cbn [manager yielded notified fmap option_fmap option_map new_tokens].
  rewrite <- app_assoc. do 3 f_equal.
  symmetry.
  apply (zip_with_app pair (chars (echoed self m)) [t] _ [final_chunk self]).
  rewrite content_chunks_length. reflexivity.
Qed.

Lemma sum_total_tokens (ct : Z) (tokens : list string) :
  tokens <> [] ->
  sum (map chunk_total_tokens (content_chunks ct tokens))
  = ct + Z.of_nat (length tokens).
Proof.
  destruct tokens as [|t ts]; [contradiction|]. intros _.
  cbn [content_chunks map]. rewrite sum_cons.
  assert (sum (map chunk_total_tokens (map (content_chunk 0) ts))
          = Z.of_nat (length ts)) as ->.
  { induction ts as [|t' ts IH]; [reflexivity|].
    cbn [map]. rewrite sum_cons, IH. unfold chunk_total_tokens. cbn. lia. }
  unfold chunk_total_tokens. cbn. lia.
Qed.

Lemma sum_input_tokens (ct : Z) (tokens : list string) :
  tokens <> [] ->
  sum (map chunk_input_tokens (content_chunks ct tokens)) = ct.
Proof.
  destruct tokens as [|t ts]; [contradiction|]. intros _.
  cbn [content_chunks map]. rewrite sum_cons, sum_input_tokens_zero.
  unfold chunk_input_tokens. cbn. lia.
Qed.

(** X10: Streaming and single invocation report the same usage when at least one
    character is echoed: summed over the chunks of the stream, the input,
    output and total token counts are the three counts of the usage metadata
    of the message [_generate] returns on the same conversation. *)
Theorem stream_usage_matches_generate (history : list BaseMessage)
    (m : BaseMessage) (rm rm' : option CallbackManagerForLLMRun) :
  echoed self m <> EmptyString ->
  exists msg usage,
    _generate self (history ++ [m]) stop rm'
      = Ok (mkResult [mkGeneration msg]) /\
    usage_metadata msg = Some usage /\
    sum (map chunk_input_tokens
           (yielded (_stream self (history ++ [m]) stop rm)))
      = input_tokens usage /\
    sum (map chunk_output_tokens
           (yielded (_stream self (history ++ [m]) stop rm)))
      = output_tokens usage /\
    sum (map chunk_total_tokens
           (yielded (_stream self (history ++ [m]) stop rm)))
      = total_tokens usage.
Proof.
  intros Hne. pose proof (last_snoc m history) as Hlast.
  do 2 eexists. split; [apply generate_run; exact Hlast|].
  split; [reflexivity|].
  cbn [input_tokens output_tokens total_tokens].
  destruct (stream_run_yielded self stop _ _ rm Hlast (or_intror Hne))
    as [-> _].
  assert (chars (echoed self m) <> []) as Hchars
    by (intros Hnil; apply chars_nil in Hnil; contradiction).
  rewrite !map_app, !sum_app, sum_output_tokens, chars_length,
    (sum_input_tokens _ _ Hchars), (sum_total_tokens _ _ Hchars), chars_length.
  unfold len. cbn. repeat split; lia.
Qed.

End StreamMore.

Section StreamInvariants.

Variable self : ChatParrotLink.
Variable stop : option (list string).

Lemma content_chunks_Forall (P : ChatGenerationChunk -> Prop) (ct : Z)
    (tokens : list string) :
  (forall c t, t ∈ tokens -> P (content_chunk c t)) ->
  Forall P (content_chunks ct tokens).
Proof.
  intros HP. destruct tokens as [|t ts]; [constructor|].
  cbn [content_chunks]. constructor.
  - apply HP. left.
  - apply Forall_fmap, Forall_forall. intros t' Hin. cbn. apply HP.
    right. exact Hin.
Qed.

Lemma stream_yielded_Forall (P : ChatGenerationChunk -> Prop)
    (messages : list BaseMessage) (rm : option CallbackManagerForLLMRun) :
  (forall last_message,
     last messages = Some last_message ->
     Forall P (content_chunks (count_input_tokens messages)
                 (chars (echoed self last_message)))) ->
  P (final_chunk self) ->
  Forall P (yielded (_stream self messages stop rm)).
Proof.
  intros Hchunks Hfinal. destruct (last messages) as [last_message|] eqn:Hlast.
  - destruct (stream_yielded_cases self stop _ _ rm Hlast) as [-> | ->];
      [|constructor].
    apply Forall_app. split; [apply Hchunks; reflexivity|].
    constructor; [exact Hfinal|constructor].
  - apply last_None in Hlast as ->. constructor.
Qed.

(** X11: Every chunk of every stream is of one of two kinds: a chunk with usage
    metadata holds exactly one character, counts one output token, a
    non-negative number of input tokens and their sum as total; a chunk
    without usage metadata is empty. *)
Theorem stream_chunk_kinds (messages : list BaseMessage)
    (rm : option CallbackManagerForLLMRun) :
  Forall
    (fun c =>
       match usage_metadata (chunk_message c) with
       | Some usage =>
           String.length (content (chunk_message c)) = 1%nat /\
           output_tokens usage = 1 /\
           0 <= input_tokens usage /\
           total_tokens usage = input_tokens usage + output_tokens usage
       | None => content (chunk_message c) = EmptyString
       end)
    (yielded (_stream self messages stop rm)).
Proof.
  apply stream_yielded_Forall; [|reflexivity].
  intros last_message _.
  destruct (chars (echoed self last_message)) as [|t ts] eqn:E;
    [constructor|].
  assert (forall t', t' ∈ t :: ts -> String.length t' = 1%nat) as Hone
    by (intros t' Hin; apply (chars_single (echoed self last_message));
        rewrite E; exact Hin).
  cbn [content_chunks]. constructor.
  - cbn. split; [apply Hone; left|].
    pose proof (count_input_tokens_nonneg messages). repeat split; lia.
  - apply Forall_fmap, Forall_forall. intros t' Hin. cbn.
    split; [apply Hone; right; exact Hin|]. repeat split; lia.
Qed.

(** X12: Response metadata of a stream: chunks that hold a character have none;
    an empty chunk reports the model name of [_identifying_params] and the
    elapsed time under the key "time_in_sec", not under "time_in_seconds". *)
Theorem stream_response_metadata (messages : list BaseMessage)
    (rm : option CallbackManagerForLLMRun) :
  Forall
    (fun c =>
       match content (chunk_message c) with
       | EmptyString =>
           response_metadata (chunk_message c) !! "model_name"
             = _identifying_params self !! "model_name" /\
           response_metadata (chunk_message c) !! "time_in_sec"
             = Some (VInt 3) /\
           response_metadata (chunk_message c) !! "time_in_seconds" = None
       | String _ _ => response_metadata (chunk_message c) = ∅
       end)
    (yielded (_stream self messages stop rm)).
Proof.
  apply stream_yielded_Forall.
  - intros last_message _. apply content_chunks_Forall. intros ct t Hin.
    apply chars_single in Hin. cbn. destruct t; [discriminate|reflexivity].
  - cbn. unfold _identifying_params.
    rewrite lookup_insert_ne by discriminate.
    rewrite lookup_insert_eq, lookup_singleton_eq, lookup_insert_eq.
    rewrite !lookup_insert_ne by discriminate.
    rewrite lookup_empty. repeat split.
Qed.

(** X13: Response metadata of a reply: [_generate] reports the model name of
    [_identifying_params] and the elapsed time under the key
    "time_in_seconds", not under the key "time_in_sec" that [_stream]
    uses. *)
Theorem generate_response_metadata (history : list BaseMessage)
    (m : BaseMessage) (rm : option CallbackManagerForLLMRun) :
  exists msg,
    _generate self (history ++ [m]) stop rm
      = Ok (mkResult [mkGeneration msg]) /\
    response_metadata msg !! "model_name"
      = _identifying_params self !! "model_name" /\
    response_metadata msg !! "time_in_seconds" = Some (VInt 3) /\
    response_metadata msg !! "time_in_sec" = None.
Proof.
  eexists. split; [apply generate_run, last_snoc|].
  cbn [response_metadata AIMessage]. unfold _identifying_params.
  rewrite lookup_insert_ne by discriminate.
  rewrite lookup_insert_eq, lookup_singleton_eq, lookup_insert_eq.
  rewrite !lookup_insert_ne by discriminate.
  rewrite lookup_empty. repeat split.
Qed.

(** X14: A stream is bounded by the buffer: with a non-negative
    [parrot_buffer_length], no stream yields more than
    [parrot_buffer_length + 1] chunks, whatever the conversation and the run
    manager. *)
Theorem stream_bounded (messages : list BaseMessage)
    (rm : option CallbackManagerForLLMRun) :
  0 <= parrot_buffer_length self ->
  Z.of_nat (length (yielded (_stream self messages stop rm)))
  <= parrot_buffer_length self + 1.
Proof.
  intros Hn. destruct (last messages) as [last_message|] eqn:Hlast.
  - destruct (stream_yielded_cases self stop _ _ rm Hlast) as [-> | ->];
      [|cbn; lia].
    rewrite length_app, content_chunks_length, chars_length. cbn [length].
    assert (len (echoed self last_message) <= parrot_buffer_length self)
      as Hle.
    { unfold echoed. rewrite slice_to_len. unfold adjust_stop.
      destruct (Z.ltb_spec (parrot_buffer_length self) 0); [lia|].
      destruct (Z.leb_spec (len (content last_message))
                  (parrot_buffer_length self)); lia. }
    unfold len in Hle. lia.
  - apply last_None in Hlast as ->. rewrite stream_empty_run.
    cbn [yielded length]. lia.
Qed.

End StreamInvariants.


Lemma stream_chunks_witness :
  last [HumanMessage "cat"] = Some (HumanMessage "cat") /\
  (Some (mkManager []) = None \/ echoed model (HumanMessage "cat") <> EmptyString) /\
  let chunks :=
    yielded (_stream model [HumanMessage "cat"] None (Some (mkManager []))) in
  length chunks = S (String.length (echoed model (HumanMessage "cat"))) /\
  (forall i c,
     String.get i (echoed model (HumanMessage "cat")) = Some c ->
     (fun ch => content (chunk_message ch)) <$> chunks !! i
       = Some (String c EmptyString)) /\
  last chunks = Some (final_chunk model) /\
  content (chunk_message (final_chunk model)) = EmptyString /\
  response_metadata (chunk_message (final_chunk model)) !! "model_name"
    = Some (VStr (model_name model)).
Proof.
  split; [reflexivity|].
  split; [right; vm_compute; discriminate|].
  apply (stream_chunks model None [HumanMessage "cat"] (HumanMessage "cat")
           (Some (mkManager []))).
  - reflexivity.
  - right. vm_compute. discriminate.
Defined.

Lemma stream_callbacks_witness :
  echoed model (HumanMessage "cat") <> EmptyString /\
  exists last_token,
    last (chars (echoed model (HumanMessage "cat"))) = Some last_token /\
    manager (_stream model ([] ++ [HumanMessage "cat"]) None
               (Some (mkManager [])))
    = Some (mkManager
              (new_tokens (mkManager [])
               ++ zip (chars (echoed model (HumanMessage "cat")) ++ [last_token])
                      (yielded (_stream model ([] ++ [HumanMessage "cat"]) None
                                  (Some (mkManager [])))))).
Proof.
  split; [vm_compute; discriminate|].
  apply (stream_callbacks model None [] (HumanMessage "cat") (mkManager [])).
  vm_compute. discriminate.
Defined.

Lemma stream_usage_matches_generate_witness :
  echoed model (HumanMessage "Meow!") <> EmptyString /\
  exists msg usage,
    _generate model ([HumanMessage "hello!"] ++ [HumanMessage "Meow!"]) None None
      = Ok (mkResult [mkGeneration msg]) /\
    usage_metadata msg = Some usage /\
    sum (map chunk_input_tokens
           (yielded (_stream model
                       ([HumanMessage "hello!"] ++ [HumanMessage "Meow!"])
                       None (Some (mkManager [])))))
      = input_tokens usage /\
    sum (map chunk_output_tokens
           (yielded (_stream model
                       ([HumanMessage "hello!"] ++ [HumanMessage "Meow!"])
                       None (Some (mkManager [])))))
      = output_tokens usage /\
    sum (map chunk_total_tokens
           (yielded (_stream model
                       ([HumanMessage "hello!"] ++ [HumanMessage "Meow!"])
                       None (Some (mkManager [])))))
      = total_tokens usage.
Proof.
  split; [vm_compute; discriminate|].
  apply (stream_usage_matches_generate model None [HumanMessage "hello!"]
           (HumanMessage "Meow!") (Some (mkManager [])) None).
  vm_compute. discriminate.
Defined.

Lemma stream_bounded_witness :
  0 <= parrot_buffer_length model /\
  Z.of_nat (length (yielded (_stream model [HumanMessage "goodbye"] None None)))
  <= parrot_buffer_length model + 1.
Proof.
  split; [vm_compute; discriminate|].
  apply (stream_bounded model None [HumanMessage "goodbye"] None).
  vm_compute. discriminate.
Defined.
